(** * mcp-delphi: the build server's command executor

    A shallow embedding of [src/server.ts]: the five tool handlers
    ([delphi.build], [delphi.clean], [fpc.build], [lazarus.build],
    [lazarus.clean]), the helper [runCommand] they share, and the
    response formatting of the registered callbacks.

    The Node runtime the handlers run on (the [node:path] functions, the
    file system, [process.env], and what a spawned child does) is not part
    of the repository; it is the interface [Host] below, and everything is
    proved for an arbitrary host.  A small concrete host is defined to run
    the handlers on explicit requests. *)

From Stdlib Require Import ZArith List String Ascii Bool Lia DecimalString.
Import ListNotations.

Local Open Scope string_scope.
Local Open Scope list_scope.

(** ** JavaScript values and operators used by the source *)

Module JS.

(** The two characters the source writes with an escape. *)
Definition dq : string := String (ascii_of_nat 34) EmptyString.
Definition nl : string := String (ascii_of_nat 10) EmptyString.

(** An optional string field ([x?: string], or [process.env.X]) is
    [None] when undefined.  [cond o k d] is [o ? k(o) : d]: a string is
    truthy when it is defined and not empty. *)
Definition cond {A : Type} (o : option string) (k : string -> A) (d : A) : A :=
  match o with
  | Some s => if (s =? EmptyString)%string then d else k s
  | None => d
  end.

Definition truthy (o : option string) : bool :=
  cond o (fun _ => true) false.

(** [a || b] on optional strings, and [a || 'literal']. *)
Definition or_else (a b : option string) : option string :=
  if truthy a then a else b.

Definition or_default (a : option string) (d : string) : string :=
  cond a (fun s => s) d.

(** [xs || []] on an optional array: every array is truthy. *)
Definition or_empty {A : Type} (xs : option (list A)) : list A :=
  match xs with
  | Some l => l
  | None => []
  end.

(** [Boolean] applied to a string, as passed to [Array.prototype.filter]. *)
Definition Boolean (s : string) : bool := negb (s =? EmptyString)%string.

(** [Array.prototype.join]. *)
Definition join (sep : string) (xs : list string) : string :=
  String.concat sep xs.

(** [String.prototype.toLowerCase] on the ASCII letters; the other
    characters are left as they are. *)
Definition lower_ascii (c : ascii) : ascii :=
  let n := nat_of_ascii c in
  if (65 <=? n)%nat && (n <=? 90)%nat then ascii_of_nat (n + 32) else c.

Fixpoint toLowerCase (s : string) : string :=
  match s with
  | EmptyString => EmptyString
  | String c s' => String (lower_ascii c) (toLowerCase s')
  end.

(** [`${code}`] for [code : number | null]: an exit code is an integer. *)
Definition show_code (code : option Z) : string :=
  match code with
  | None => "null"
  | Some z => NilZero.string_of_int (Z.to_int z)
  end.

(** [code === 0]. *)
Definition is_zero (code : option Z) : bool :=
  match code with
  | Some z => (z =? 0)%Z
  | None => false
  end.

End JS.

Import JS.

(** ** Data *)

(** A thrown value: [new Error(message)], or the [TypeError] the engine
    raises when a property of [undefined] is read. *)
Inductive JsError : Type :=
| Error (message : string)
| TypeError (message : string).

(** The arguments of one call of [child_process.spawn]: the command, the
    argument array, and the options [runCommand] passes. *)
Record SpawnCall : Type := mkSpawn {
  sp_cmd : string;
  sp_args : list string;
  sp_cwd : option string;
  sp_env : list (string * string);
  sp_shell : bool;
  sp_windowsHide : bool
}.

(** What a child process emits, in order.  [ErrorEv] is the child's own
    ['error'] event (the process could not be started); the others are
    ['data'] on [child.stdout] and [child.stderr], and ['close']. *)
Inductive ChildEvent : Type :=
| StdoutData (d : string)
| StderrData (d : string)
| Close (code : option Z)
| ErrorEv (e : string).

(** [spawn] either throws synchronously or returns a child.  The child
    normally has its [stdout] and [stderr] streams; when the process could
    not be started for lack of file descriptors (EMFILE, ENFILE) [spawn]
    returns before it creates them: [child.stdout] is undefined, reading
    [child.stdout.on] raises a [TypeError] (with the engine's message),
    and the child's ['error'] event [e] is emitted afterwards. *)
Inductive SpawnResult : Type :=
| SpawnThrows (e : JsError)
| Child (events : list ChildEvent)
| StreamlessChild (typeError : string) (e : string).

(** The value [runCommand] resolves with. *)
Record ExecResult : Type := mkResult {
  code : option Z;
  stdout : string;
  stderr : string
}.

(** The [options] parameter of [runCommand]. *)
Record RunOptions : Type := mkOptions {
  opt_cwd : option string;
  opt_env : list (string * string)
}.

Definition no_options : RunOptions := mkOptions None [].

(** A content part [{ type: 'text', text }], and the value a tool callback
    returns: the parts and the error flag. *)
Inductive ContentPart : Type :=
| TextPart (text : string).

Record Response : Type := mkResponse {
  content : list ContentPart;
  isError : bool
}.

(** The request objects, with the fields each handler destructures. *)
Record MSBuildReq : Type := mkMSBuildReq {
  project : string;
  configuration : option string;
  platform : option string;
  msbuildPath : option string;
  rsvarsPath : option string
}.

Record FpcReq : Type := mkFpcReq {
  source : string;
  output : option string;
  defines : option (list string);
  unitPaths : option (list string);
  includePaths : option (list string);
  fpc_cpu : option string;
  fpc_os : option string;
  fpcPath : option string
}.

Record LazBuildReq : Type := mkLazBuildReq {
  lb_project : string;
  buildMode : option string;
  lb_cpu : option string;
  lb_os : option string;
  lb_lazbuildPath : option string
}.

Record LazCleanReq : Type := mkLazCleanReq {
  lc_project : string;
  lc_lazbuildPath : option string
}.

(** A tool call: the name under which a callback is registered, with its
    request. *)
Inductive ToolCall : Type :=
| DelphiBuild (req : MSBuildReq)
| DelphiClean (req : MSBuildReq)
| FpcBuild (req : FpcReq)
| LazarusBuild (req : LazBuildReq)
| LazarusClean (req : LazCleanReq).

(** ** The host *)

Class Host : Type := {
  resolve : string -> string;
  extname : string -> string;
  basename : string -> string;
  dirname : string -> string;
  existsSync : string -> bool;
  getenv : string -> option string;
  spawn : SpawnCall -> SpawnResult
}.

(** ** Effects

    A handler is an [async] function: it ends resolved with a value or
    rejected with an error, or it never settles.  [Uncaught] is the case
    of an ['error'] event emitted with no listener: Node throws it outside
    every promise, which stays unsettled.  [RejectedUncaught] is the case
    of a promise rejected with [e] while an ['error'] event [ev] is also
    emitted with no listener.  The state is the list of [spawn] calls made
    so far. *)

Inductive Outcome (A : Type) : Type :=
| Resolved (a : A)
| Rejected (e : JsError)
| Unsettled
| Uncaught (e : string)
| RejectedUncaught (e : JsError) (ev : string).

Arguments Resolved {A} a.
Arguments Rejected {A} e.
Arguments Unsettled {A}.
Arguments Uncaught {A} e.
Arguments RejectedUncaught {A} e ev.

Definition M (A : Type) : Type := list SpawnCall -> Outcome A * list SpawnCall.

Definition ret {A : Type} (a : A) : M A := fun log => (Resolved a, log).

Definition throw {A : Type} (e : JsError) : M A := fun log => (Rejected e, log).

Definition bind {A B : Type} (m : M A) (k : A -> M B) : M B :=
  fun log =>
    match m log with
    | (Resolved a, log') => k a log'
    | (Rejected e, log') => (Rejected e, log')
    | (Unsettled, log') => (Unsettled, log')
    | (Uncaught e, log') => (Uncaught e, log')
    | (RejectedUncaught e ev, log') => (RejectedUncaught e ev, log')
    end.

Notation "x <- m ;; k" := (bind m (fun x => k))
  (at level 61, m at next level, right associativity).

Definition outcome {A : Type} (m : M A) : Outcome A := fst (m []).
Definition spawned {A : Type} (m : M A) : list SpawnCall := snd (m []).

(** ** The handlers *)

Section Handlers.

Context {host : Host}.

(** [runCommand]: the listeners on a child.  Output is accumulated until
    ['close'], which resolves the promise; the promise has no other
    settling call, and no listener is registered for ['error']. *)
Fixpoint listen (events : list ChildEvent) (out err : string) : Outcome ExecResult :=
  match events with
  | [] => Unsettled
  | StdoutData d :: rest => listen rest (out ++ d) err
  | StderrData d :: rest => listen rest out (err ++ d)
  | Close c :: _ => Resolved (mkResult c out err)
  | ErrorEv e :: _ => Uncaught e
  end.

(** [runCommand(cmd, args, options)]: one call of [spawn], inside the
    promise's executor (an exception thrown there rejects the promise:
    one thrown by [spawn], or by [child.stdout.on] on a child without
    streams, before any listener is registered). *)
Definition runCommand (cmd : string) (args : list string) (options : RunOptions)
  : M ExecResult :=
  fun log =>
    let call := mkSpawn cmd args (opt_cwd options) (opt_env options) true true in
    (match spawn call with
     | SpawnThrows e => Rejected e
     | Child events => listen events EmptyString EmptyString
     | StreamlessChild typeError e => RejectedUncaught (TypeError typeError) e
     end, log ++ [call]).

Definition resolveDefaults : option string * option string :=
  let rsvars := or_else (getenv "RSVARS_BAT") (getenv "RSVARS_PATH") in
  let msbuild := getenv "MSBUILD_PATH" in
  (rsvars, msbuild).

(** The constants [rsvarsFinal] and [msbuildFinal], computed the same way
    by [buildWithMSBuild] and [cleanWithMSBuild]. *)
Definition rsvarsFinal (req : MSBuildReq) : option string :=
  let '(rsvars, _) := resolveDefaults in
  or_else (rsvarsPath req) rsvars.

Definition msbuildFinal (req : MSBuildReq) : string :=
  let '(_, msbuild) := resolveDefaults in
  or_default (or_else (msbuildPath req) msbuild) "msbuild".

Definition isDelphiProject (file : string) : bool :=
  let ext := toLowerCase (extname file) in
  (ext =? ".dproj")%string || (ext =? ".groupproj")%string.

(** The [args] array of [buildWithMSBuild], before the spawn. *)
Definition buildArgs (projPath : string) (configuration platform : option string)
  : list string :=
  filter Boolean
    [ dq ++ projPath ++ dq;
      "/t:Build";
      cond configuration (fun c => "/p:Config=" ++ c) EmptyString;
      cond platform (fun p => "/p:Platform=" ++ p) EmptyString ]%string.

(** The composite instruction handed to [cmd /s /c]. *)
Definition composite (rsvarsFinal msbuildFinal : string) (args : list string)
  : list string :=
  [ "/s"; "/c";
    (dq ++ "@echo off && call " ++ dq ++ rsvarsFinal ++ dq ++ " && "
        ++ msbuildFinal ++ " " ++ join " " args ++ dq)%string ].

Definition buildWithMSBuild (req : MSBuildReq) : M ExecResult :=
  let projPath := resolve (project req) in
  if negb (existsSync projPath) then
    throw (Error ("Project not found: " ++ projPath))
  else if negb (isDelphiProject projPath) then
    throw (Error "Unsupported project type. Provide a .dproj or .groupproj file")
  else
    let rsvarsFinal := rsvarsFinal req in
    let msbuildFinal := msbuildFinal req in
    let args := buildArgs projPath (configuration req) (platform req) in
    cond rsvarsFinal
      (fun rsv =>
         if existsSync rsv then runCommand "cmd" (composite rsv msbuildFinal args) no_options
         else runCommand msbuildFinal args no_options)
      (runCommand msbuildFinal args no_options).

(** The [args] array of [cleanWithMSBuild]. *)
Definition cleanArgs (projPath : string) (configuration platform : option string)
  : list string :=
  filter Boolean
    [ dq ++ projPath ++ dq;
      "/t:Clean";
      cond configuration (fun c => "/p:Config=" ++ c) EmptyString;
      cond platform (fun p => "/p:Platform=" ++ p) EmptyString ]%string.

Definition cleanWithMSBuild (req : MSBuildReq) : M ExecResult :=
  let projPath := resolve (project req) in
  if negb (existsSync projPath) then
    throw (Error ("Project not found: " ++ projPath))
  else if negb (isDelphiProject projPath) then
    throw (Error "Unsupported project type. Provide a .dproj or .groupproj file")
  else
    let rsvarsFinal := rsvarsFinal req in
    let msbuildFinal := msbuildFinal req in
    let args := cleanArgs projPath (configuration req) (platform req) in
    cond rsvarsFinal
      (fun rsv =>
         if existsSync rsv then runCommand "cmd" (composite rsv msbuildFinal args) no_options
         else runCommand msbuildFinal args no_options)
      (runCommand msbuildFinal args no_options).

Definition isFpcSource (file : string) : bool :=
  let ext := toLowerCase (extname file) in
  (ext =? ".pas")%string || (ext =? ".pp")%string
  || (ext =? ".p")%string || (ext =? ".lpr")%string.

(** [args.push(x)]. *)
Definition push (args : list string) (x : string) : list string := args ++ [x].

(** [xs.forEach(x => args.push(f(x)))]. *)
Definition forEach_push (xs : list string) (f : string -> string) (args : list string)
  : list string :=
  fold_left (fun acc x => push acc (f x)) xs args.

(** The [args] array of [buildWithFpc], statement by statement. *)
Definition fpcArgs (srcPath : string) (req : FpcReq) : list string :=
  let args := [] in
  let args := cond (fpc_cpu req) (fun cpu => push args ("-P" ++ cpu)) args in
  let args := cond (fpc_os req) (fun os => push args ("-T" ++ os)) args in
  let args := cond (output req) (fun o => push args ("-o" ++ resolve o)) args in
  let args := forEach_push (or_empty (defines req)) (fun d => "-d" ++ d)%string args in
  let args := forEach_push (or_empty (unitPaths req)) (fun p => "-Fu" ++ resolve p)%string args in
  let args := forEach_push (or_empty (includePaths req)) (fun p => "-Fi" ++ resolve p)%string args in
  push args (dq ++ srcPath ++ dq).

Definition buildWithFpc (req : FpcReq) : M ExecResult :=
  let srcPath := resolve (source req) in
  if negb (existsSync srcPath) then
    throw (Error ("Source not found: " ++ srcPath))
  else if negb (isFpcSource srcPath) then
    throw (Error "Unsupported source type. Provide a .lpr/.pas/.pp")
  else
    let args := fpcArgs srcPath req in
    let compiler := or_default (fpcPath req) "fpc" in
    runCommand compiler args (mkOptions (Some (dirname srcPath)) []).

Definition isLazarusProject (file : string) : bool :=
  (toLowerCase (extname file) =? ".lpi")%string.

(** [args[0] = x] on a non-empty array, and [args.pop()]. *)
Definition set_first (args : list string) (x : string) : list string :=
  match args with
  | [] => [x]
  | _ :: rest => x :: rest
  end.

Definition pop (args : list string) : list string := removelast args.

(** The [args] array of [lazarusBuild]. *)
Definition lazarusArgs (projPath : string) (req : LazBuildReq) : list string :=
  let args := ["--build-mode="] in
  let args := cond (buildMode req) (fun bm => set_first args ("--build-mode=" ++ bm))
                   (pop args) in
  let args := cond (lb_cpu req) (fun cpu => push args ("--cpu=" ++ cpu)) args in
  let args := cond (lb_os req) (fun os => push args ("--os=" ++ os)) args in
  push args (dq ++ projPath ++ dq).

Definition lazarusBuild (req : LazBuildReq) : M ExecResult :=
  let projPath := resolve (lb_project req) in
  if negb (existsSync projPath) then
    throw (Error ("Project not found: " ++ projPath))
  else if negb (isLazarusProject projPath) then
    throw (Error "Unsupported project type. Provide a .lpi file")
  else
    let args := lazarusArgs projPath req in
    let lazbuild := or_default (lb_lazbuildPath req) "lazbuild" in
    runCommand lazbuild args (mkOptions (Some (dirname projPath)) []).

Definition lazarusClean (req : LazCleanReq) : M ExecResult :=
  let projPath := resolve (lc_project req) in
  if negb (existsSync projPath) then
    throw (Error ("Project not found: " ++ projPath))
  else if negb (isLazarusProject projPath) then
    throw (Error "Unsupported project type. Provide a .lpi file")
  else
    let args := ["--clean"; (dq ++ projPath ++ dq)%string] in
    let lazbuild := or_default (lc_lazbuildPath req) "lazbuild" in
    runCommand lazbuild args (mkOptions (Some (dirname projPath)) []).

(** ** The registered callbacks *)

Definition delphi_build (req : MSBuildReq) : M Response :=
  r <- buildWithMSBuild req ;;
  let ok := is_zero (code r) in
  ret (mkResponse
         [ TextPart (if ok then "Build succeeded for " ++ basename (project req)
                     else "Build failed for " ++ basename (project req));
           TextPart ("Exit code: " ++ show_code (code r));
           TextPart ("--- STDOUT ---" ++ nl ++ stdout r);
           TextPart ("--- STDERR ---" ++ nl ++ stderr r) ]
         (negb ok)).

Definition delphi_clean (req : MSBuildReq) : M Response :=
  r <- cleanWithMSBuild req ;;
  let ok := is_zero (code r) in
  ret (mkResponse
         [ TextPart (if ok then "Clean succeeded for " ++ basename (project req)
                     else "Clean failed for " ++ basename (project req));
           TextPart ("Exit code: " ++ show_code (code r));
           TextPart ("--- STDOUT ---" ++ nl ++ stdout r);
           TextPart ("--- STDERR ---" ++ nl ++ stderr r) ]
         (negb ok)).

Definition fpc_build (req : FpcReq) : M Response :=
  r <- buildWithFpc req ;;
  let ok := is_zero (code r) in
  ret (mkResponse
         [ TextPart (if ok then "FPC build succeeded for " ++ basename (source req)
                     else "FPC build failed for " ++ basename (source req));
           TextPart ("Exit code: " ++ show_code (code r));
           TextPart ("--- STDOUT ---" ++ nl ++ stdout r);
           TextPart ("--- STDERR ---" ++ nl ++ stderr r) ]
         (negb ok)).

Definition lazarus_build (req : LazBuildReq) : M Response :=
  r <- lazarusBuild req ;;
  let ok := is_zero (code r) in
  ret (mkResponse
         [ TextPart (if ok then "Lazarus build succeeded for " ++ basename (lb_project req)
                     else "Lazarus build failed for " ++ basename (lb_project req));
           TextPart ("Exit code: " ++ show_code (code r));
           TextPart ("--- STDOUT ---" ++ nl ++ stdout r);
           TextPart ("--- STDERR ---" ++ nl ++ stderr r) ]
         (negb ok)).

Definition lazarus_clean (req : LazCleanReq) : M Response :=
  r <- lazarusClean req ;;
  let ok := is_zero (code r) in
  ret (mkResponse
         [ TextPart (if ok then "Lazarus clean succeeded for " ++ basename (lc_project req)
                     else "Lazarus clean failed for " ++ basename (lc_project req));
           TextPart ("Exit code: " ++ show_code (code r));
           TextPart ("--- STDOUT ---" ++ nl ++ stdout r);
           TextPart ("--- STDERR ---" ++ nl ++ stderr r) ]
         (negb ok)).

(** The function each callback awaits, and the callback, by tool. *)
Definition execute (t : ToolCall) : M ExecResult :=
  match t with
  | DelphiBuild req => buildWithMSBuild req
  | DelphiClean req => cleanWithMSBuild req
  | FpcBuild req => buildWithFpc req
  | LazarusBuild req => lazarusBuild req
  | LazarusClean req => lazarusClean req
  end.

Definition callTool (t : ToolCall) : M Response :=
  match t with
  | DelphiBuild req => delphi_build req
  | DelphiClean req => delphi_clean req
  | FpcBuild req => fpc_build req
  | LazarusBuild req => lazarus_build req
  | LazarusClean req => lazarus_clean req
  end.

End Handlers.

(** ** A concrete host

    A POSIX-flavoured host over an explicit working directory, set of
    existing files and environment, used to run the handlers on explicit
    requests.  Its path functions follow [node:path] on normalized paths
    (no [.] or [..] segment, no doubled or trailing separator inside). *)

Module Posix.

Definition slash : ascii := ascii_of_nat 47.
Definition dot : ascii := ascii_of_nat 46.

Definition is_slash (c : ascii) : bool := Ascii.eqb c slash.

Fixpoint drop_while (p : ascii -> bool) (cs : list ascii) : list ascii :=
  match cs with
  | [] => []
  | c :: rest => if p c then drop_while p rest else cs
  end.

Fixpoint take_while (p : ascii -> bool) (cs : list ascii) : list ascii :=
  match cs with
  | [] => []
  | c :: rest => if p c then c :: take_while p rest else []
  end.

(** The last component of a path, reversed: trailing separators are
    skipped, then everything up to the previous separator is kept. *)
Definition last_component_rev (path : string) : list ascii :=
  let cs := drop_while is_slash (rev (list_ascii_of_string path)) in
  take_while (fun c => negb (is_slash c)) cs.

(** [path.basename(path)]. *)
Definition basename (path : string) : string :=
  string_of_list_ascii (rev (last_component_rev path)).

(** [path.extname(path)]: from the last dot of the last component to its
    end; empty when there is no dot, when the only dot is the first
    character, or when the component is [..]. *)
Definition extname (path : string) : string :=
  let comp := last_component_rev path in
  let after := take_while (fun c => negb (Ascii.eqb c dot)) comp in
  match drop_while (fun c => negb (Ascii.eqb c dot)) comp with
  | [] => EmptyString
  | _ :: before =>
      match before, after with
      | [], _ => EmptyString
      | [d], [] => if Ascii.eqb d dot then EmptyString else String dot EmptyString
      | _, _ => string_of_list_ascii (dot :: rev after)
      end
  end.

(** [path.dirname(path)] of an absolute path. *)
Definition dirname (path : string) : string :=
  let cs := drop_while is_slash (rev (list_ascii_of_string path)) in
  let cs := drop_while (fun c => negb (is_slash c)) cs in
  let cs := drop_while is_slash cs in
  match cs with
  | [] => String slash EmptyString
  | _ => string_of_list_ascii (rev cs)
  end.

(** [path.resolve(path)] against the working directory [cwd]. *)
Definition resolve (cwd path : string) : string :=
  match path with
  | EmptyString => cwd
  | String c _ => if is_slash c then path else (cwd ++ String slash path)%string
  end.

Fixpoint lookup (env : list (string * string)) (name : string) : option string :=
  match env with
  | [] => None
  | (k, v) :: rest => if (k =? name)%string then Some v else lookup rest name
  end.

Definition host (cwd : string) (files : list string) (env : list (string * string))
  (child : SpawnCall -> SpawnResult) : Host :=
  Build_Host (resolve cwd) extname basename dirname
    (fun p => existsb (String.eqb p) files) (lookup env) child.

End Posix.

(** The files of the example hosts. *)
Definition demo_files : list string :=
  [ "/work/App.dproj"; "/work/main.lpr"; "/work/unit1.p"; "/work/notes.txt";
    "/work/demo.lpi"; "/opt/studio/rsvars.bat" ].

(** A host without an environment-initialization script configured, whose
    children print a line and exit with code 0. *)
Definition demo_host : Host :=
  Posix.host "/work" demo_files []
    (fun _ => Child [StdoutData "done"; Close (Some 0%Z)]).

(** A host with [RSVARS_BAT] set, whose children fail with exit code 1. *)
Definition studio_host : Host :=
  Posix.host "/work" demo_files [("RSVARS_BAT", "/opt/studio/rsvars.bat")]
    (fun _ => Child [StdoutData "compiling"; StderrData "Fatal: "; StderrData "syntax error";
                     Close (Some 1%Z)]).

(** A host on which no child can be started (its shell is missing):
    every child emits ['error'] and nothing else. *)
Definition broken_host : Host :=
  Posix.host "/work" demo_files []
    (fun _ => Child [ErrorEv "spawn /bin/sh ENOENT"]).

(** ** Vocabulary of the specification *)

Section Vocabulary.

Context {host : Host}.

(** The three request kinds, and the kind of each tool. *)
Inductive Kind : Type :=
| ProjectBuild
| Compiler
| AltBuild.

Definition kind (t : ToolCall) : Kind :=
  match t with
  | DelphiBuild _ | DelphiClean _ => ProjectBuild
  | FpcBuild _ => Compiler
  | LazarusBuild _ | LazarusClean _ => AltBuild
  end.

(** The path a request names. *)
Definition inputPath (t : ToolCall) : string :=
  match t with
  | DelphiBuild req | DelphiClean req => project req
  | FpcBuild req => source req
  | LazarusBuild req => lb_project req
  | LazarusClean req => lc_project req
  end.

(** The extension test each handler applies to the resolved path. *)
Definition accepted (t : ToolCall) (file : string) : bool :=
  match kind t with
  | ProjectBuild => isDelphiProject file
  | Compiler => isFpcSource file
  | AltBuild => isLazarusProject file
  end.

(** The accepted extensions as the specification lists them, and as the
    handlers test them. *)
Definition stated_extensions (k : Kind) : list string :=
  match k with
  | ProjectBuild => [".dproj"; ".groupproj"]
  | Compiler => [".lpr"; ".pas"; ".pp"]
  | AltBuild => [".lpi"]
  end.

Definition accepted_extensions (k : Kind) : list string :=
  match k with
  | ProjectBuild => [".dproj"; ".groupproj"]
  | Compiler => [".pas"; ".pp"; ".p"; ".lpr"]
  | AltBuild => [".lpi"]
  end.

(** The two validation errors, by tool. *)
Definition not_found_error (t : ToolCall) : JsError :=
  match kind t with
  | Compiler => Error ("Source not found: " ++ resolve (inputPath t))
  | _ => Error ("Project not found: " ++ resolve (inputPath t))
  end.

Definition unsupported_error (t : ToolCall) : JsError :=
  match kind t with
  | ProjectBuild => Error "Unsupported project type. Provide a .dproj or .groupproj file"
  | Compiler => Error "Unsupported source type. Provide a .lpr/.pas/.pp"
  | AltBuild => Error "Unsupported project type. Provide a .lpi file"
  end.

(** The value of a field that is given (defined and not empty), and the
    flag that is present when its field is given. *)
Definition given (field : option string) : list string :=
  match field with
  | Some v => if (v =? EmptyString)%string then [] else [v]
  | None => []
  end.

Definition flag (prefix : string) (field : option string) : list string :=
  map (fun v => prefix ++ v)%string (given field).

(** The environment-initialization script of a request is usable when
    its resolved path is not empty and exists on disk. *)
Definition script_usable (req : MSBuildReq) : Prop :=
  exists rsv, rsvarsFinal req = Some rsv /\ rsv <> EmptyString /\ existsSync rsv = true.

(** A spawn call is shell-wrapped when its command is the interpreter and
    its arguments are the two switches and one composite instruction. *)
Definition shell_wrapped (call : SpawnCall) : Prop :=
  sp_cmd call = "cmd" /\ exists instruction, sp_args call = ["/s"; "/c"; instruction].

(** The composite instruction: echo off, then the script, then the tool
    with its arguments, chained by [&&]. *)
Definition chained (script tool : string) (args : list string) : string :=
  (dq ++ "@echo off && call " ++ dq ++ script ++ dq ++ " && "
      ++ tool ++ " " ++ join " " args ++ dq)%string.

(** The spawn call [runCommand] makes, with the options it always sets. *)
Definition launched (cmd : string) (args : list string) (cwd : option string) : SpawnCall :=
  mkSpawn cmd args cwd [] true true.

(** A run that spawns nothing, or the tool with the argument vector
    [vector], or the interpreter with the chained instruction built from
    that vector. *)
Definition spawns_vector (m : M ExecResult) (req : MSBuildReq) (vector : list string) : Prop :=
  spawned m = []
  \/ spawned m = [launched (msbuildFinal req) vector None]
  \/ exists rsv,
       spawned m = [launched "cmd" ["/s"; "/c"; chained rsv (msbuildFinal req) vector] None].

(** What a project-build or project-clean execution with argument vector
    [args] does: one spawn call, wrapped exactly when the script is usable. *)
Definition launches_once (m : M ExecResult) (req : MSBuildReq) (args : list string) : Prop :=
  exists call,
    spawned m = [call]
    /\ (forall rsv, rsvarsFinal req = Some rsv -> rsv <> EmptyString -> existsSync rsv = true ->
        call = launched "cmd" ["/s"; "/c"; chained rsv (msbuildFinal req) args] None)
    /\ (~ script_usable req -> call = launched (msbuildFinal req) args None)
    /\ (shell_wrapped call <-> script_usable req).

(** The status line of a response. *)
Definition tool_label (t : ToolCall) : string :=
  match t with
  | DelphiBuild _ => "Build"
  | DelphiClean _ => "Clean"
  | FpcBuild _ => "FPC build"
  | LazarusBuild _ => "Lazarus build"
  | LazarusClean _ => "Lazarus clean"
  end.

Definition status_line (t : ToolCall) (ok : bool) : string :=
  (tool_label t ++ (if ok then " succeeded for " else " failed for ")
     ++ basename (inputPath t))%string.

(** The working directory the specification's kinds are spawned in. *)
Definition expected_cwd (t : ToolCall) : option string :=
  match kind t with
  | ProjectBuild => None
  | Compiler | AltBuild => Some (dirname (resolve (inputPath t)))
  end.

(** The promise [runCommand] returns, given the call it makes. *)
Definition settle (call : SpawnCall) : Outcome ExecResult :=
  match spawn call with
  | SpawnThrows e => Rejected e
  | Child events => listen events EmptyString EmptyString
  | StreamlessChild typeError e => RejectedUncaught (TypeError typeError) e
  end.

(** The promise behind an outcome is rejected with [e]. *)
Definition promise_rejected {A : Type} (o : Outcome A) (e : JsError) : Prop :=
  o = Rejected e \/ exists ev, o = RejectedUncaught e ev.

(** What [spawn] does when the operating system cannot start the child:
    it throws, or returns a child without streams, or returns a child
    whose first event is ['error']. *)
Inductive spawn_failure : SpawnResult -> Prop :=
| failure_thrown (e : JsError) : spawn_failure (SpawnThrows e)
| failure_streamless (typeError e : string) : spawn_failure (StreamlessChild typeError e)
| failure_event (e : string) (rest : list ChildEvent) :
    spawn_failure (Child (ErrorEv e :: rest)).

(** The spawn call of a request that passes validation. *)
Definition msbuild_launch (req : MSBuildReq) (args : list string) : SpawnCall :=
  cond (rsvarsFinal req)
    (fun rsv =>
       if existsSync rsv then launched "cmd" (composite rsv (msbuildFinal req) args) None
       else launched (msbuildFinal req) args None)
    (launched (msbuildFinal req) args None).

Definition launch (t : ToolCall) : SpawnCall :=
  let path := resolve (inputPath t) in
  match t with
  | DelphiBuild req =>
      msbuild_launch req (buildArgs path (configuration req) (platform req))
  | DelphiClean req =>
      msbuild_launch req (cleanArgs path (configuration req) (platform req))
  | FpcBuild req =>
      launched (or_default (fpcPath req) "fpc") (fpcArgs path req) (Some (dirname path))
  | LazarusBuild req =>
      launched (or_default (lb_lazbuildPath req) "lazbuild") (lazarusArgs path req)
        (Some (dirname path))
  | LazarusClean req =>
      launched (or_default (lc_lazbuildPath req) "lazbuild")
        ["--clean"; (dq ++ path ++ dq)%string] (Some (dirname path))
  end.

End Vocabulary.

(** ** Input schemas, test scripts and child output *)

Section Inputs.

Context {host : Host}.

(** The schemas [BuildInput] and [CleanInput], as functions from the
    arguments a client sends to the request the callback receives: a
    field declared [.optional().default(d)] that is undefined becomes
    [d], every other field is kept.  The other three schemas declare no
    default. *)
Definition BuildInput (raw : MSBuildReq) : MSBuildReq :=
  mkMSBuildReq (project raw)
    (Some match configuration raw with
          | Some c => c
          | None => or_default (getenv "DELPHI_CONFIG") "Release"
          end)
    (Some match platform raw with
          | Some p => p
          | None => or_default (getenv "DELPHI_PLATFORM") "Win32"
          end)
    (msbuildPath raw) (rsvarsPath raw).

Definition CleanInput (raw : MSBuildReq) : MSBuildReq :=
  mkMSBuildReq (project raw)
    (configuration raw)
    (Some match platform raw with
          | Some p => p
          | None => or_default (getenv "DELPHI_PLATFORM") "Win32"
          end)
    (msbuildPath raw) (rsvarsPath raw).

(** The [arguments] object of [scripts/test-build.mjs] and
    [scripts/test-clean.mjs], from [process.argv[2..4]]. *)
Definition test_arguments (projectPath : string) (platformArg configArg : option string)
  : MSBuildReq :=
  mkMSBuildReq projectPath
    (Some (or_default (or_else configArg (getenv "DELPHI_CONFIG")) "Release"))
    (Some (or_default (or_else platformArg (getenv "DELPHI_PLATFORM")) "Win32"))
    None None.

End Inputs.

(** The ['data'] events of a child, and what each stream carried. *)
Definition is_data (ev : ChildEvent) : bool :=
  match ev with
  | StdoutData _ | StderrData _ => true
  | Close _ | ErrorEv _ => false
  end.

Fixpoint stdout_of (events : list ChildEvent) : string :=
  match events with
  | [] => EmptyString
  | StdoutData d :: rest => (d ++ stdout_of rest)%string
  | _ :: rest => stdout_of rest
  end.

Fixpoint stderr_of (events : list ChildEvent) : string :=
  match events with
  | [] => EmptyString
  | StderrData d :: rest => (d ++ stderr_of rest)%string
  | _ :: rest => stderr_of rest
  end.

(** A host out of file descriptors: [spawn] returns a child without
    streams. *)
Definition exhausted_host : Host :=
  Posix.host "/work" demo_files []
    (fun _ => StreamlessChild "Cannot read properties of undefined (reading 'on')"
                "spawn /bin/sh EMFILE").

(** A host whose children print and never close. *)
Definition hanging_host : Host :=
  Posix.host "/work" demo_files []
    (fun _ => Child [StdoutData "waiting"; StderrData "still waiting"]).

(** A host with defaults for the tool, the configuration and the platform,
    and a second script location. *)
Definition configured_host : Host :=
  Posix.host "/work" demo_files
    [ ("RSVARS_BAT", EmptyString); ("RSVARS_PATH", "/opt/studio/rsvars.bat");
      ("MSBUILD_PATH", "/opt/msbuild/MSBuild.exe");
      ("DELPHI_CONFIG", "Debug"); ("DELPHI_PLATFORM", "Win64") ]
    (fun _ => Child [Close None]).

(** ** Properties *)

Section Properties.

Context {host : Host}.

(** *** Argument vectors *)

Lemma quoted_not_empty (p : string) : Boolean (dq ++ p ++ dq) = true.
Proof. reflexivity. Qed.

Lemma truthy_false_flag (prefix : string) (field : option string) :
  truthy field = false -> flag prefix field = [].
Proof.
  destruct field as [v|]; [|reflexivity].
  unfold truthy, flag, given, cond.
  destruct (v =? EmptyString)%string; [reflexivity|discriminate].
Qed.

(** The [filter(Boolean)] of the MSBuild vectors removes exactly the
    placeholders of the two optional properties. *)
Lemma msbuild_filter (projPath target : string) (c p : option string) :
  filter Boolean
    [ (dq ++ projPath ++ dq)%string;
      String "/" (String "t" (String ":" target));
      cond c (fun v => ("/p:Config=" ++ v)%string) EmptyString;
      cond p (fun v => ("/p:Platform=" ++ v)%string) EmptyString ]
  = [ (dq ++ projPath ++ dq)%string; String "/" (String "t" (String ":" target)) ]
      ++ flag "/p:Config=" c ++ flag "/p:Platform=" p.
Proof.
  destruct c as [[|a c]|]; destruct p as [[|b p]|]; reflexivity.
Qed.

Lemma buildArgs_flags (projPath : string) (c p : option string) :
  buildArgs projPath c p
  = [ (dq ++ projPath ++ dq)%string; "/t:Build" ]
      ++ flag "/p:Config=" c ++ flag "/p:Platform=" p.
Proof. exact (msbuild_filter projPath "Build" c p). Qed.

Lemma cleanArgs_flags (projPath : string) (c p : option string) :
  cleanArgs projPath c p
  = [ (dq ++ projPath ++ dq)%string; "/t:Clean" ]
      ++ flag "/p:Config=" c ++ flag "/p:Platform=" p.
Proof. exact (msbuild_filter projPath "Clean" c p). Qed.

Lemma forEach_push_map (xs : list string) (f : string -> string) (args : list string) :
  forEach_push xs f args = args ++ map f xs.
Proof.
  unfold forEach_push. revert args.
  induction xs as [|x xs IH]; intros args; simpl.
  - now rewrite app_nil_r.
  - rewrite IH. unfold push. now rewrite <- app_assoc.
Qed.

Lemma cond_push (f : string -> string) (field : option string) (args : list string) :
  cond field (fun v => push args (f v)) args = args ++ map f (given field).
Proof.
  destruct field as [v|]; simpl.
  - destruct (v =? EmptyString)%string; [now rewrite app_nil_r | reflexivity].
  - now rewrite app_nil_r.
Qed.

(** *** One spawn per run *)

Lemma runCommand_eq (cmd : string) (args : list string) (options : RunOptions)
  (log : list SpawnCall) :
  runCommand cmd args options log
  = (settle (mkSpawn cmd args (opt_cwd options) (opt_env options) true true),
     log ++ [mkSpawn cmd args (opt_cwd options) (opt_env options) true true]).
Proof. reflexivity. Qed.

Lemma log_grows (log : list SpawnCall) (call : SpawnCall) : log ++ [call] <> log.
Proof.
  intros E. apply (f_equal (@List.length SpawnCall)) in E.
  rewrite length_app in E. simpl in E. lia.
Qed.

(** [listen] resolves only from a ['close'] event and never rejects. *)
Lemma listen_not_rejected (events : list ChildEvent) (out err : string) (e : JsError) :
  listen events out err <> Rejected e.
Proof.
  revert out err. induction events as [|ev rest IH]; intros out err; simpl.
  - discriminate.
  - destruct ev; try discriminate; apply IH.
Qed.

Lemma settle_rejected_iff (call : SpawnCall) (e : JsError) :
  settle call = Rejected e <-> spawn call = SpawnThrows e.
Proof.
  unfold settle. destruct (spawn call) as [e'|events|typeError ev]; split; intros E.
  - now injection E as ->.
  - now injection E as ->.
  - now apply listen_not_rejected in E.
  - discriminate.
  - discriminate.
  - discriminate.
Qed.

Lemma listen_not_rejected_uncaught (events : list ChildEvent) (out err : string)
  (e : JsError) (ev : string) :
  listen events out err <> RejectedUncaught e ev.
Proof.
  revert out err. induction events as [|x rest IH]; intros out err; simpl.
  - discriminate.
  - destruct x; try discriminate; apply IH.
Qed.

(** The promise of a call is rejected exactly when an exception is thrown
    inside the executor: by [spawn], or by [child.stdout.on] on a child
    without streams. *)
Lemma settle_promise_rejected (call : SpawnCall) (e : JsError) :
  promise_rejected (settle call) e
  <-> spawn call = SpawnThrows e
      \/ exists typeError ev,
           e = TypeError typeError /\ spawn call = StreamlessChild typeError ev.
Proof.
  unfold promise_rejected, settle.
  destruct (spawn call) as [e'|events|typeError ev]; split.
  - intros [E|[ev E]]; [injection E as ->; now left | discriminate].
  - intros [E|(typeError & ev & _ & E)]; [injection E as ->; now left | discriminate].
  - intros [E|[ev E]];
      [now apply listen_not_rejected in E | now apply listen_not_rejected_uncaught in E].
  - intros [E|(typeError & ev & _ & E)]; discriminate.
  - intros [E|[ev' E]]; [discriminate|]. injection E as <- _.
    right. now exists typeError, ev.
  - intros [E|(typeError' & ev' & -> & E)]; [discriminate|]. injection E as <- <-.
    right. now exists ev.
Qed.

(** *** Validation *)

Ltac run_validation :=
  unfold execute, buildWithMSBuild, cleanWithMSBuild, buildWithFpc, lazarusBuild,
    lazarusClean, not_found_error, unsupported_error, accepted, kind, inputPath, throw in *.

Lemma execute_missing (t : ToolCall) (log : list SpawnCall) :
  existsSync (resolve (inputPath t)) = false ->
  execute t log = (Rejected (not_found_error t), log).
Proof.
  intros Hmiss. destruct t; run_validation; simpl in *; now rewrite Hmiss.
Qed.

Lemma execute_unsupported (t : ToolCall) (log : list SpawnCall) :
  existsSync (resolve (inputPath t)) = true ->
  accepted t (resolve (inputPath t)) = false ->
  execute t log = (Rejected (unsupported_error t), log).
Proof.
  intros Hex Hacc. destruct t; run_validation; simpl in *; now rewrite Hex, Hacc.
Qed.

Lemma msbuild_launch_run (req : MSBuildReq) (args : list string) (log : list SpawnCall) :
  cond (rsvarsFinal req)
    (fun rsv =>
       if existsSync rsv then runCommand "cmd" (composite rsv (msbuildFinal req) args) no_options
       else runCommand (msbuildFinal req) args no_options)
    (runCommand (msbuildFinal req) args no_options) log
  = (settle (msbuild_launch req args), log ++ [msbuild_launch req args]).
Proof.
  unfold msbuild_launch, cond.
  destruct (rsvarsFinal req) as [rsv|]; [|reflexivity].
  destruct (rsv =? EmptyString)%string; [reflexivity|].
  destruct (existsSync rsv); reflexivity.
Qed.

Lemma execute_valid (t : ToolCall) (log : list SpawnCall) :
  existsSync (resolve (inputPath t)) = true ->
  accepted t (resolve (inputPath t)) = true ->
  execute t log = (settle (launch t), log ++ [launch t]).
Proof.
  intros Hex Hacc. destruct t; run_validation; simpl in *; rewrite Hex, Hacc; simpl.
  - apply msbuild_launch_run.
  - apply msbuild_launch_run.
  - reflexivity.
  - reflexivity.
  - reflexivity.
Qed.

(** The extension test of each handler is membership of the lowercased
    extension in [accepted_extensions]. *)
Lemma accepted_iff (t : ToolCall) (file : string) :
  accepted t file = true
  <-> In (toLowerCase (extname file)) (accepted_extensions (kind t)).
Proof.
  unfold accepted, isDelphiProject, isFpcSource, isLazarusProject.
  destruct (kind t); simpl; rewrite ?orb_true_iff, ?String.eqb_eq;
    intuition (subst; auto; try discriminate).
Qed.

(** A callback fails the way the function it awaits fails, and formats
    the result it resolves with. *)
Lemma callTool_execute (t : ToolCall) (log : list SpawnCall) :
  callTool t log
  = match execute t log with
    | (Resolved r, log') =>
        (Resolved
           (mkResponse
              [ TextPart (status_line t (is_zero (code r)));
                TextPart ("Exit code: " ++ show_code (code r));
                TextPart ("--- STDOUT ---" ++ nl ++ stdout r);
                TextPart ("--- STDERR ---" ++ nl ++ stderr r) ]
              (negb (is_zero (code r)))), log')
    | (Rejected e, log') => (Rejected e, log')
    | (Unsettled, log') => (Unsettled, log')
    | (Uncaught e, log') => (Uncaught e, log')
    | (RejectedUncaught e ev, log') => (RejectedUncaught e ev, log')
    end.
Proof.
  destruct t; simpl;
    unfold delphi_build, delphi_clean, fpc_build, lazarus_build, lazarus_clean, bind;
    match goal with |- context [match ?m log with _ => _ end] => destruct (m log) as [[r|e| |e|e ev] log'] end;
    try reflexivity;
    unfold ret, status_line, tool_label, inputPath; destruct (is_zero (code r)); reflexivity.
Qed.

(** *** The MSBuild handlers *)

Lemma msbuild_launch_shape (req : MSBuildReq) (args : list string) :
  msbuild_launch req args = launched (msbuildFinal req) args None
  \/ exists rsv,
       msbuild_launch req args
       = launched "cmd" ["/s"; "/c"; chained rsv (msbuildFinal req) args] None.
Proof.
  unfold msbuild_launch, cond.
  destruct (rsvarsFinal req) as [rsv|]; [|now left].
  destruct (rsv =? EmptyString)%string; [now left|].
  destruct (existsSync rsv); [right; now exists rsv | now left].
Qed.

Lemma spawned_execute (t : ToolCall) :
  spawned (execute t)
  = if existsSync (resolve (inputPath t)) && accepted t (resolve (inputPath t))
    then [launch t] else [].
Proof.
  unfold spawned.
  destruct (existsSync (resolve (inputPath t))) eqn:Hex; simpl.
  - destruct (accepted t (resolve (inputPath t))) eqn:Hacc.
    + now rewrite execute_valid.
    + now rewrite execute_unsupported.
  - now rewrite execute_missing.
Qed.

Lemma build_spawns_vector (req : MSBuildReq) :
  spawns_vector (buildWithMSBuild req) req
    (buildArgs (resolve (project req)) (configuration req) (platform req)).
Proof.
  unfold spawns_vector.
  change (buildWithMSBuild req) with (execute (DelphiBuild req)).
  rewrite spawned_execute.
  destruct (_ && _); [|now left]. right. simpl.
  destruct (msbuild_launch_shape req
              (buildArgs (resolve (project req)) (configuration req) (platform req)))
    as [E|[rsv E]]; rewrite E; [now left | right; now exists rsv].
Qed.

Lemma clean_spawns_vector (req : MSBuildReq) :
  spawns_vector (cleanWithMSBuild req) req
    (cleanArgs (resolve (project req)) (configuration req) (platform req)).
Proof.
  unfold spawns_vector.
  change (cleanWithMSBuild req) with (execute (DelphiClean req)).
  rewrite spawned_execute.
  destruct (_ && _); [|now left]. right. simpl.
  destruct (msbuild_launch_shape req
              (cleanArgs (resolve (project req)) (configuration req) (platform req)))
    as [E|[rsv E]]; rewrite E; [now left | right; now exists rsv].
Qed.

(** C1.  A project-build request with configuration [Release] and
    platform [Win64] constructs exactly the four-element vector: the
    quoted absolute project path, [/t:Build], [/p:Config=Release],
    [/p:Platform=Win64], in that order; and whatever [buildWithMSBuild]
    spawns for it carries that vector. *)
Theorem build_args_release_win64 (path : string) (msbuild rsvars : option string) :
  let req := mkMSBuildReq path (Some "Release") (Some "Win64") msbuild rsvars in
  let vector :=
    [ (dq ++ resolve path ++ dq)%string; "/t:Build"; "/p:Config=Release";
      "/p:Platform=Win64" ] in
  buildArgs (resolve (project req)) (configuration req) (platform req) = vector
  /\ spawns_vector (buildWithMSBuild req) req vector.
Proof.
  intros req vector.
  assert (E : buildArgs (resolve (project req)) (configuration req) (platform req) = vector)
    by reflexivity.
  split; [exact E|]. rewrite <- E. apply build_spawns_vector.
Qed.

(** C7.  When the configuration and the platform of a project-build or
    project-clean request are both absent or empty, the argument vector is
    exactly the quoted absolute project path followed by the target flag:
    it holds no configuration flag, no platform flag and no empty
    [/p:Config=] or [/p:Platform=] token; and whatever the handlers spawn
    carries that vector. *)
Theorem msbuild_args_without_properties (req : MSBuildReq) :
  truthy (configuration req) = false ->
  truthy (platform req) = false ->
  let quoted := (dq ++ resolve (project req) ++ dq)%string in
  buildArgs (resolve (project req)) (configuration req) (platform req)
    = [quoted; "/t:Build"]
  /\ cleanArgs (resolve (project req)) (configuration req) (platform req)
    = [quoted; "/t:Clean"]
  /\ (forall token, In token ["/p:Config="; "/p:Platform="] ->
      ~ In token (buildArgs (resolve (project req)) (configuration req) (platform req))
      /\ ~ In token (cleanArgs (resolve (project req)) (configuration req) (platform req)))
  /\ spawns_vector (buildWithMSBuild req) req [quoted; "/t:Build"]
  /\ spawns_vector (cleanWithMSBuild req) req [quoted; "/t:Clean"].
Proof.
  intros Hc Hp quoted.
  assert (Eb : buildArgs (resolve (project req)) (configuration req) (platform req)
               = [quoted; "/t:Build"]).
  { rewrite buildArgs_flags, (truthy_false_flag _ _ Hc), (truthy_false_flag _ _ Hp).
    reflexivity. }
  assert (Ec : cleanArgs (resolve (project req)) (configuration req) (platform req)
               = [quoted; "/t:Clean"]).
  { rewrite cleanArgs_flags, (truthy_false_flag _ _ Hc), (truthy_false_flag _ _ Hp).
    reflexivity. }
  split; [exact Eb|]. split; [exact Ec|]. split; [|split].
  - intros token Htoken. rewrite Eb, Ec. subst quoted.
    split; intros [H|[H|[]]]; destruct Htoken as [<-|[<-|[]]]; discriminate.
  - rewrite <- Eb. apply build_spawns_vector.
  - rewrite <- Ec. apply clean_spawns_vector.
Qed.

(** *** The compiler handler *)

(** C2.  The argument vector of a compiler request is, in this order: the
    target-CPU flag if given, the target-OS flag if given, the output flag
    if given (with the resolved output path), one [-d] flag per define,
    one [-Fu] flag per unit path (resolved), one [-Fi] flag per include
    path (resolved), and the quoted absolute source path last.  For
    source [main.lpr], CPU [x86_64], OS [win64] and the define [DEBUG=1]
    it is [-Px86_64], [-Twin64], [-dDEBUG=1] and the quoted path.  When
    [buildWithFpc] spawns, it passes that vector to the compiler. *)
Theorem fpc_args_order (req : FpcReq) (compiler : option string) :
  fpcArgs (resolve (source req)) req
  = flag "-P" (fpc_cpu req)
      ++ flag "-T" (fpc_os req)
      ++ map (fun o => "-o" ++ resolve o)%string (given (output req))
      ++ map (fun d => "-d" ++ d)%string (or_empty (defines req))
      ++ map (fun p => "-Fu" ++ resolve p)%string (or_empty (unitPaths req))
      ++ map (fun p => "-Fi" ++ resolve p)%string (or_empty (includePaths req))
      ++ [ (dq ++ resolve (source req) ++ dq)%string ]
  /\ fpcArgs (resolve "main.lpr")
       (mkFpcReq "main.lpr" None (Some ["DEBUG=1"]) None None
          (Some "x86_64") (Some "win64") compiler)
     = [ "-Px86_64"; "-Twin64"; "-dDEBUG=1"; (dq ++ resolve "main.lpr" ++ dq)%string ]
  /\ (spawned (buildWithFpc req) = []
      \/ spawned (buildWithFpc req)
         = [ launched (or_default (fpcPath req) "fpc") (fpcArgs (resolve (source req)) req)
               (Some (dirname (resolve (source req)))) ]).
Proof.
  split; [|split; [reflexivity|]].
  2:{ change (buildWithFpc req) with (execute (FpcBuild req)).
      rewrite spawned_execute. destruct (_ && _); [now right | now left]. }
  unfold fpcArgs, flag.
  rewrite !forEach_push_map.
  rewrite (cond_push (fun v => "-P" ++ v)%string).
  rewrite (cond_push (fun v => "-T" ++ v)%string).
  rewrite (cond_push (fun v => "-o" ++ resolve v)%string).
  unfold push. now rewrite <- !app_assoc.
Qed.

(** *** Validation errors *)

Lemma callTool_spawned (t : ToolCall) (log : list SpawnCall) :
  snd (callTool t log) = snd (execute t log).
Proof.
  rewrite callTool_execute. now destruct (execute t log) as [[r|e| |e|e ev] log'].
Qed.

Lemma callTool_rejected (t : ToolCall) (log log' : list SpawnCall) (e : JsError) :
  execute t log = (Rejected e, log') -> callTool t log = (Rejected e, log').
Proof. intros E. now rewrite callTool_execute, E. Qed.

Lemma errors_differ (t : ToolCall) : not_found_error t <> unsupported_error t.
Proof.
  unfold not_found_error, unsupported_error. destruct (kind t); simpl; discriminate.
Qed.

(** C3 (amended).  For a request whose input path resolves to an existing
    file, the handler fails with the unsupported-kind error, having
    spawned nothing, if and only if the lowercased extension of the
    resolved path is not in the set the handler accepts: [.dproj],
    [.groupproj] for the project kind, [.pas], [.pp], [.p], [.lpr] for the
    compiler kind, [.lpi] for the alt-build kind.  The callback then
    fails with the same error and no spawn. *)
Theorem unsupported_iff_extension_rejected (t : ToolCall) (log : list SpawnCall) :
  existsSync (resolve (inputPath t)) = true ->
  (execute t log = (Rejected (unsupported_error t), log)
   <-> ~ In (toLowerCase (extname (resolve (inputPath t)))) (accepted_extensions (kind t)))
  /\ (execute t log = (Rejected (unsupported_error t), log)
      -> callTool t log = (Rejected (unsupported_error t), log)).
Proof.
  intros Hex. split; [|apply callTool_rejected].
  rewrite <- accepted_iff. split.
  - intros E Hacc. rewrite (execute_valid t log Hex Hacc) in E.
    injection E as _ E. now apply log_grows in E.
  - intros Hacc. apply execute_unsupported; [exact Hex|].
    now destruct (accepted t (resolve (inputPath t))).
Qed.

(** C4.  When the input path does not resolve to an existing file, every
    handler fails with the not-found error and the list of spawn calls is
    unchanged: the error is raised during validation, before any call of
    the process-launch function; the callback fails the same way. *)
Theorem not_found_before_spawn (t : ToolCall) (log : list SpawnCall) :
  existsSync (resolve (inputPath t)) = false ->
  execute t log = (Rejected (not_found_error t), log)
  /\ callTool t log = (Rejected (not_found_error t), log).
Proof.
  intros Hmiss. split.
  - now apply execute_missing.
  - apply callTool_rejected. now apply execute_missing.
Qed.

(** C9.  Not-found takes precedence over unsupported-kind: when the input
    path does not resolve to an existing file and its extension is also
    outside the accepted set, the handler fails with the not-found error,
    which is not the unsupported-kind error. *)
Theorem not_found_precedes_unsupported (t : ToolCall) (log : list SpawnCall) :
  existsSync (resolve (inputPath t)) = false ->
  ~ In (toLowerCase (extname (resolve (inputPath t)))) (accepted_extensions (kind t)) ->
  fst (execute t log) = Rejected (not_found_error t)
  /\ fst (execute t log) <> Rejected (unsupported_error t)
  /\ fst (callTool t log) = Rejected (not_found_error t).
Proof.
  intros Hmiss _.
  pose proof (execute_missing t log Hmiss) as E.
  rewrite (callTool_rejected t log log _ E), E. simpl.
  repeat split. intros H. injection H as H. now apply errors_differ in H.
Qed.

(** *** Wrapping in the environment-initialization script *)

Lemma script_usable_dec (req : MSBuildReq) :
  (exists rsv, rsvarsFinal req = Some rsv /\ rsv <> EmptyString /\ existsSync rsv = true
               /\ forall args, msbuild_launch req args
                               = launched "cmd" (composite rsv (msbuildFinal req) args) None)
  \/ (~ script_usable req
      /\ forall args, msbuild_launch req args = launched (msbuildFinal req) args None).
Proof.
  unfold script_usable, msbuild_launch, cond.
  destruct (rsvarsFinal req) as [rsv|].
  - destruct (rsv =? EmptyString)%string eqn:Eempty.
    + right. split; [|reflexivity]. intros (rsv' & E & Hne & _).
      injection E as <-. now apply String.eqb_eq in Eempty.
    + destruct (existsSync rsv) eqn:Eex.
      * left. exists rsv. repeat split; trivial. now apply String.eqb_neq.
      * right. split; [|reflexivity]. intros (rsv' & E & _ & Hex).
        injection E as <-. congruence.
  - right. split; [|reflexivity]. now intros (rsv' & E & _).
Qed.

Lemma launches_once_intro (m : M ExecResult) (req : MSBuildReq) (args : list string)
  (quoted : string) (rest : list string) :
  spawned m = [msbuild_launch req args] ->
  args = (dq ++ quoted)%string :: rest ->
  launches_once m req args.
Proof.
  intros Hm Hargs. exists (msbuild_launch req args). split; [exact Hm|].
  destruct (script_usable_dec req) as [(rsv & E & Hne & Hex & Hcall)|[Hno Hcall]];
    rewrite Hcall.
  - split; [|split].
    + intros rsv' E' _ _. rewrite E in E'. now injection E' as <-.
    + intros Hno. exfalso. apply Hno. now exists rsv.
    + split; [intros _; now exists rsv|].
      intros _. split; [reflexivity|]. now eexists.
  - split; [|split].
    + intros rsv E Hne Hex. exfalso. apply Hno. now exists rsv.
    + reflexivity.
    + split; [|intros H; now apply Hno in H].
      intros [_ [instruction E]]. simpl in E. rewrite Hargs in E. discriminate.
Qed.

(** C5.  A project-build or project-clean request that passes validation
    spawns exactly one process.  The call is shell-wrapped if and only if
    the resolved script path is not empty and exists on disk: then the
    command is the interpreter [cmd] with [/s], [/c] and one composite
    instruction that chains the script and the tool with its arguments by
    [&&]; otherwise the command is the build tool with its argument
    vector. *)
Theorem msbuild_single_spawn (req : MSBuildReq) :
  existsSync (resolve (project req)) = true ->
  isDelphiProject (resolve (project req)) = true ->
  launches_once (buildWithMSBuild req) req
    (buildArgs (resolve (project req)) (configuration req) (platform req))
  /\ launches_once (cleanWithMSBuild req) req
       (cleanArgs (resolve (project req)) (configuration req) (platform req)).
Proof.
  intros Hex Hacc. split.
  - eapply launches_once_intro; [|apply buildArgs_flags].
    change (buildWithMSBuild req) with (execute (DelphiBuild req)).
    rewrite spawned_execute. simpl. unfold accepted. simpl. now rewrite Hex, Hacc.
  - eapply launches_once_intro; [|apply cleanArgs_flags].
    change (cleanWithMSBuild req) with (execute (DelphiClean req)).
    rewrite spawned_execute. simpl. unfold accepted. simpl. now rewrite Hex, Hacc.
Qed.

(** *** Responses *)

Lemma is_zero_false_iff (c : option Z) :
  negb (is_zero c) = true <-> c = None \/ exists z, c = Some z /\ z <> 0%Z.
Proof.
  destruct c as [z|]; simpl.
  - rewrite negb_true_iff, Z.eqb_neq. split.
    + intros Hz. right. now exists z.
    + intros [E|(z' & E & Hz)]; [discriminate | now injection E as ->].
  - split; [now left | reflexivity].
Qed.

(** C6.  Whatever the tool and whatever result its execution resolves
    with, the response is built from that one result: the status line
    says success exactly when the exit code is 0, then come the exit-code
    line, the stdout block and the stderr block; the error flag is the
    negation of [code === 0], so it is true if and only if the exit code
    is absent, or present and not zero. *)
Theorem response_reflects_exit_code (t : ToolCall) (log log' : list SpawnCall)
  (r : ExecResult) :
  execute t log = (Resolved r, log') ->
  exists response,
    callTool t log = (Resolved response, log')
    /\ isError response = negb (is_zero (code r))
    /\ (isError response = true
        <-> code r = None \/ exists c, code r = Some c /\ c <> 0%Z)
    /\ content response
       = [ TextPart (status_line t (is_zero (code r)));
           TextPart ("Exit code: " ++ show_code (code r));
           TextPart ("--- STDOUT ---" ++ nl ++ stdout r);
           TextPart ("--- STDERR ---" ++ nl ++ stderr r) ].
Proof.
  intros E. rewrite callTool_execute, E.
  eexists. split; [reflexivity|]. simpl.
  split; [reflexivity|]. split; [apply is_zero_false_iff | reflexivity].
Qed.

(** *** Spawn failures *)

(** C8 (amended).  When the operating system cannot start the child,
    [runCommand] never resolves, so the outcome is distinct from a
    captured exit code; but its promise is rejected only when an exception
    is thrown inside the executor: [spawn] throws, or it returns a child
    without streams and attaching the stdout listener throws.  When the
    failure is reported by the child's ['error'] event alone (the shell is
    not found or may not be executed), the promise is neither rejected
    nor resolved: no listener is registered for ['error'], and the error
    is raised outside the promise. *)
Theorem spawn_failure_outcomes (cmd : string) (args : list string)
  (options : RunOptions) (log : list SpawnCall) :
  let call := mkSpawn cmd args (opt_cwd options) (opt_env options) true true in
  let promise := fst (runCommand cmd args options log) in
  spawn_failure (spawn call) ->
  (forall result, promise <> Resolved result)
  /\ (forall e,
        promise_rejected promise e
        <-> spawn call = SpawnThrows e
            \/ exists typeError ev,
                 e = TypeError typeError /\ spawn call = StreamlessChild typeError ev)
  /\ (forall ev rest,
        spawn call = Child (ErrorEv ev :: rest) ->
        promise = Uncaught ev /\ forall e, ~ promise_rejected promise e).
Proof.
  intros call promise Hfail. subst promise. rewrite runCommand_eq. simpl. fold call.
  split; [|split].
  - intros result. unfold settle.
    destruct Hfail as [e|typeError e|e rest]; simpl; discriminate.
  - intros e. apply settle_promise_rejected.
  - intros ev rest Hspawn. unfold settle. rewrite Hspawn. simpl.
    split; [reflexivity|]. intros e [E|[ev' E]]; discriminate.
Qed.

(** *** Working directory *)

(** C10.  A compiler or alt-build request that passes validation spawns
    its tool with the working directory set to the directory of the
    resolved source or project file; a project-build or project-clean
    request spawns with no working directory given. *)
Theorem working_directory (t : ToolCall) :
  existsSync (resolve (inputPath t)) = true ->
  accepted t (resolve (inputPath t)) = true ->
  exists call,
    spawned (execute t) = [call]
    /\ spawned (callTool t) = [call]
    /\ sp_cwd call = expected_cwd t.
Proof.
  intros Hex Hacc. exists (launch t).
  assert (E : spawned (execute t) = [launch t])
    by now rewrite spawned_execute, Hex, Hacc.
  split; [exact E|]. split.
  - unfold spawned in *. now rewrite callTool_spawned.
  - unfold expected_cwd.
    destruct t as [req|req|req|req|req]; try reflexivity; simpl;
      destruct (msbuild_launch_shape req
                  (buildArgs (resolve (project req)) (configuration req) (platform req)))
        as [E1|[rsv E1]];
      destruct (msbuild_launch_shape req
                  (cleanArgs (resolve (project req)) (configuration req) (platform req)))
        as [E2|[rsv' E2]];
      rewrite ?E1, ?E2; reflexivity.
Qed.

End Properties.

(** ** Runs on the concrete hosts *)

Section OnDemoHost.

#[local] Existing Instance demo_host.

Example build_release_win64_run :
  delphi_build (mkMSBuildReq "App.dproj" (Some "Release") (Some "Win64") None None) []
  = (Resolved
       (mkResponse
          [ TextPart "Build succeeded for App.dproj";
            TextPart "Exit code: 0";
            TextPart ("--- STDOUT ---" ++ nl ++ "done");
            TextPart ("--- STDERR ---" ++ nl) ]
          false),
     [ launched "msbuild"
         [ (dq ++ "/work/App.dproj" ++ dq)%string; "/t:Build"; "/p:Config=Release";
           "/p:Platform=Win64" ] None ]).
Proof. reflexivity. Qed.

Example extension_case_is_ignored :
  isDelphiProject "/work/Suite.GroupProj" = true
  /\ isFpcSource "/work/UNIT1.PAS" = true
  /\ isLazarusProject "/work/demo.lpi.bak" = false.
Proof. repeat split. Qed.

(** The request that separates the handler's accepted set from the
    specification's: an existing [.p] file is compiled, not refused. *)
Lemma fpc_accepts_p_extension :
  let t := FpcBuild (mkFpcReq "unit1.p" None None None None None None None) in
  existsSync (resolve (inputPath t)) = true
  /\ toLowerCase (extname (resolve (inputPath t))) = ".p"
  /\ ~ In ".p" (stated_extensions (kind t))
  /\ execute t []
     = (Resolved (mkResult (Some 0%Z) "done" EmptyString),
        [launched "fpc" [(dq ++ "/work/unit1.p" ++ dq)%string] (Some "/work")])
  /\ fst (execute t []) <> Rejected (unsupported_error t)
  /\ spawned (execute t) <> [].
Proof.
  repeat split; try reflexivity; simpl.
  - intros [H|[H|[H|[]]]]; discriminate.
  - discriminate.
  - discriminate.
Qed.

Lemma unsupported_iff_extension_rejected_witness :
  let t := DelphiBuild (mkMSBuildReq "notes.txt" (Some "Release") None None None) in
  existsSync (resolve (inputPath t)) = true
  /\ (execute t [] = (Rejected (unsupported_error t), [])
      <-> ~ In (toLowerCase (extname (resolve (inputPath t))))
               (accepted_extensions (kind t))).
Proof.
  split; [reflexivity|].
  exact (proj1 (unsupported_iff_extension_rejected
                  (DelphiBuild (mkMSBuildReq "notes.txt" (Some "Release") None None None))
                  [] eq_refl)).
Defined.

Lemma not_found_before_spawn_witness :
  let t := LazarusClean (mkLazCleanReq "missing.lpi" None) in
  existsSync (resolve (inputPath t)) = false
  /\ execute t [] = (Rejected (Error "Project not found: /work/missing.lpi"), [])
  /\ callTool t [] = (Rejected (Error "Project not found: /work/missing.lpi"), []).
Proof.
  split; [reflexivity|].
  exact (not_found_before_spawn (LazarusClean (mkLazCleanReq "missing.lpi" None)) []
           eq_refl).
Defined.

Lemma not_found_precedes_unsupported_witness :
  let t := FpcBuild (mkFpcReq "missing.txt" None None None None None None None) in
  existsSync (resolve (inputPath t)) = false
  /\ ~ In ".txt" (accepted_extensions (kind t))
  /\ fst (execute t []) = Rejected (Error "Source not found: /work/missing.txt")
  /\ fst (execute t []) <> Rejected (unsupported_error t)
  /\ fst (callTool t []) = Rejected (Error "Source not found: /work/missing.txt").
Proof.
  assert (Hext : ~ In ".txt" [".pas"; ".pp"; ".p"; ".lpr"])
    by (intros [H|[H|[H|[H|[]]]]]; discriminate).
  split; [reflexivity|]. split; [exact Hext|].
  exact (not_found_precedes_unsupported
           (FpcBuild (mkFpcReq "missing.txt" None None None None None None None)) []
           eq_refl Hext).
Defined.

Lemma msbuild_args_without_properties_witness :
  let req := mkMSBuildReq "App.dproj" None (Some EmptyString) None None in
  truthy (configuration req) = false
  /\ truthy (platform req) = false
  /\ cleanArgs (resolve (project req)) (configuration req) (platform req)
     = [ (dq ++ "/work/App.dproj" ++ dq)%string; "/t:Clean" ].
Proof.
  split; [reflexivity|]. split; [reflexivity|].
  exact (proj1 (proj2 (msbuild_args_without_properties
                         (mkMSBuildReq "App.dproj" None (Some EmptyString) None None)
                         eq_refl eq_refl))).
Defined.

Lemma working_directory_witness :
  let t := LazarusBuild (mkLazBuildReq "demo.lpi" (Some "Release") None None None) in
  existsSync (resolve (inputPath t)) = true
  /\ accepted t (resolve (inputPath t)) = true
  /\ expected_cwd t = Some "/work"
  /\ exists call,
       spawned (execute t) = [call]
       /\ spawned (callTool t) = [call]
       /\ sp_cwd call = expected_cwd t.
Proof.
  split; [reflexivity|]. split; [reflexivity|]. split; [reflexivity|].
  exact (working_directory
           (LazarusBuild (mkLazBuildReq "demo.lpi" (Some "Release") None None None))
           eq_refl eq_refl).
Defined.

End OnDemoHost.

Section OnStudioHost.

#[local] Existing Instance studio_host.

Example clean_wrapped_run :
  spawned (cleanWithMSBuild (mkMSBuildReq "App.dproj" None None None None))
  = [ launched "cmd"
        [ "/s"; "/c";
          (dq ++ "@echo off && call " ++ dq ++ "/opt/studio/rsvars.bat" ++ dq
              ++ " && msbuild " ++ dq ++ "/work/App.dproj" ++ dq ++ " /t:Clean" ++ dq)%string ]
        None ].
Proof. reflexivity. Qed.

Lemma msbuild_single_spawn_witness :
  let req := mkMSBuildReq "App.dproj" (Some "Debug") (Some "Win32") None None in
  existsSync (resolve (project req)) = true
  /\ isDelphiProject (resolve (project req)) = true
  /\ script_usable req
  /\ launches_once (buildWithMSBuild req) req
       [ (dq ++ "/work/App.dproj" ++ dq)%string; "/t:Build"; "/p:Config=Debug";
         "/p:Platform=Win32" ].
Proof.
  split; [reflexivity|]. split; [reflexivity|]. split.
  - exists "/opt/studio/rsvars.bat". repeat split. discriminate.
  - exact (proj1 (msbuild_single_spawn
                    (mkMSBuildReq "App.dproj" (Some "Debug") (Some "Win32") None None)
                    eq_refl eq_refl)).
Defined.

Lemma response_reflects_exit_code_witness :
  let t := FpcBuild (mkFpcReq "main.lpr" None None None None None None None) in
  let r := mkResult (Some 1%Z) "compiling" "Fatal: syntax error" in
  let call := launched "fpc" [(dq ++ "/work/main.lpr" ++ dq)%string] (Some "/work") in
  execute t [] = (Resolved r, [call])
  /\ exists response,
       callTool t [] = (Resolved response, [call])
       /\ isError response = negb (is_zero (code r))
       /\ (isError response = true
           <-> code r = None \/ exists c, code r = Some c /\ c <> 0%Z)
       /\ content response
          = [ TextPart "FPC build failed for main.lpr";
              TextPart "Exit code: 1";
              TextPart ("--- STDOUT ---" ++ nl ++ "compiling");
              TextPart ("--- STDERR ---" ++ nl ++ "Fatal: syntax error") ].
Proof.
  split; [reflexivity|].
  exact (response_reflects_exit_code
           (FpcBuild (mkFpcReq "main.lpr" None None None None None None None)) [] _ _
           eq_refl).
Defined.

End OnStudioHost.

Section OnBrokenHost.

#[local] Existing Instance broken_host.

(** A child that cannot be started because the shell is missing: the
    promise of [runCommand] is not rejected, and the callback that awaits
    it is not rejected either. *)
Lemma spawn_failure_is_not_a_rejection :
  let call := launched "fpc" [(dq ++ "/work/main.lpr" ++ dq)%string] (Some "/work") in
  let t := FpcBuild (mkFpcReq "main.lpr" None None None None None None None) in
  spawn_failure (spawn call)
  /\ spawn call = Child [ErrorEv "spawn /bin/sh ENOENT"]
  /\ runCommand "fpc" (sp_args call) (mkOptions (sp_cwd call) []) []
     = (Uncaught "spawn /bin/sh ENOENT", [call])
  /\ (forall e,
        ~ promise_rejected
            (outcome (runCommand "fpc" (sp_args call) (mkOptions (sp_cwd call) []))) e)
  /\ callTool t [] = (Uncaught "spawn /bin/sh ENOENT", [call]).
Proof.
  repeat split.
  - apply failure_event.
  - intros e [E|[ev E]]; discriminate.
Qed.

Lemma spawn_failure_outcomes_witness :
  let promise := fst (runCommand "lazbuild" ["--clean"] no_options []) in
  spawn_failure (spawn (launched "lazbuild" ["--clean"] None))
  /\ (forall result, promise <> Resolved result)
  /\ (forall e,
        promise_rejected promise e
        <-> spawn (launched "lazbuild" ["--clean"] None) = SpawnThrows e
            \/ exists typeError ev,
                 e = TypeError typeError
                 /\ spawn (launched "lazbuild" ["--clean"] None)
                    = StreamlessChild typeError ev)
  /\ (forall ev rest,
        spawn (launched "lazbuild" ["--clean"] None) = Child (ErrorEv ev :: rest) ->
        promise = Uncaught ev /\ forall e, ~ promise_rejected promise e).
Proof.
  split; [apply failure_event|].
  exact (spawn_failure_outcomes "lazbuild" ["--clean"] no_options []
           (failure_event "spawn /bin/sh ENOENT" [])).
Defined.

End OnBrokenHost.

(** ** Further properties of the handlers *)

Section MoreProperties.

Context {host : Host}.

(** *** What [runCommand] resolves with *)

Lemma append_empty_r (s : string) : (s ++ EmptyString)%string = s.
Proof. induction s as [|c s IH]; simpl; [reflexivity | now rewrite IH]. Qed.

Lemma append_assoc (a b c : string) : ((a ++ b) ++ c)%string = (a ++ (b ++ c))%string.
Proof. induction a as [|x a IH]; simpl; [reflexivity | now rewrite IH]. Qed.

Lemma listen_data_then_close (data rest : list ChildEvent) (c : option Z)
  (out err : string) :
  forallb is_data data = true ->
  listen (data ++ Close c :: rest) out err
  = Resolved (mkResult c (out ++ stdout_of data) (err ++ stderr_of data)).
Proof.
  revert out err. induction data as [|ev data IH]; intros out err Hdata; simpl.
  - now rewrite !append_empty_r.
  - simpl in Hdata. apply andb_true_iff in Hdata as [Hev Hdata].
    destruct ev; try discriminate; rewrite (IH _ _ Hdata), append_assoc; reflexivity.
Qed.

Lemma listen_data_only (events : list ChildEvent) (out err : string) :
  forallb is_data events = true -> listen events out err = Unsettled.
Proof.
  revert out err. induction events as [|ev events IH]; intros out err Hdata; simpl.
  - reflexivity.
  - simpl in Hdata. apply andb_true_iff in Hdata as [Hev Hdata].
    destruct ev; try discriminate; now apply IH.
Qed.

(** X1.  When the child emits data chunks and then ['close'], [runCommand]
    resolves with the code of that ['close'], with the stdout chunks
    concatenated in order and the stderr chunks concatenated in order,
    kept apart; whatever the child emits after ['close'] changes nothing,
    and whatever the code is (zero, non-zero or null) the promise is
    resolved. *)
Theorem runCommand_collects_output (cmd : string) (args : list string)
  (options : RunOptions) (log : list SpawnCall)
  (data rest : list ChildEvent) (c : option Z) :
  spawn (mkSpawn cmd args (opt_cwd options) (opt_env options) true true)
    = Child (data ++ Close c :: rest) ->
  forallb is_data data = true ->
  runCommand cmd args options log
  = (Resolved (mkResult c (stdout_of data) (stderr_of data)),
     log ++ [mkSpawn cmd args (opt_cwd options) (opt_env options) true true]).
Proof.
  intros Hspawn Hdata. rewrite runCommand_eq. unfold settle. rewrite Hspawn.
  now rewrite (listen_data_then_close data rest c _ _ Hdata).
Qed.

(** X2.  A child that emits output but never ['close'] leaves the promise
    of [runCommand] unsettled: there is no timeout and no other settling
    path. *)
Theorem runCommand_waits_for_close (cmd : string) (args : list string)
  (options : RunOptions) (log : list SpawnCall) (events : list ChildEvent) :
  spawn (mkSpawn cmd args (opt_cwd options) (opt_env options) true true) = Child events ->
  forallb is_data events = true ->
  fst (runCommand cmd args options log) = Unsettled.
Proof.
  intros Hspawn Hdata. rewrite runCommand_eq. unfold settle. rewrite Hspawn.
  now apply listen_data_only.
Qed.

(** X3.  The promise of [runCommand] is rejected exactly when an
    exception is thrown inside its executor, and then with the value
    thrown: [spawn] throws, or [spawn] returns a child without streams and
    attaching the stdout listener raises a [TypeError].  Nothing a child
    with streams emits, and no exit code, rejects it. *)
Theorem runCommand_rejection_iff (cmd : string) (args : list string)
  (options : RunOptions) (log : list SpawnCall) (e : JsError) :
  promise_rejected (fst (runCommand cmd args options log)) e
  <-> spawn (mkSpawn cmd args (opt_cwd options) (opt_env options) true true)
      = SpawnThrows e
      \/ exists typeError ev,
           e = TypeError typeError
           /\ spawn (mkSpawn cmd args (opt_cwd options) (opt_env options) true true)
              = StreamlessChild typeError ev.
Proof. rewrite runCommand_eq. apply settle_promise_rejected. Qed.

(** *** Spawning *)

Lemma launch_options (t : ToolCall) :
  sp_shell (launch t) = true /\ sp_windowsHide (launch t) = true /\ sp_env (launch t) = [].
Proof.
  destruct t as [req|req|req|req|req]; simpl; try (repeat split; reflexivity).
  - destruct (msbuild_launch_shape req
                (buildArgs (resolve (project req)) (configuration req) (platform req)))
      as [E|[rsv E]]; rewrite E; repeat split.
  - destruct (msbuild_launch_shape req
                (cleanArgs (resolve (project req)) (configuration req) (platform req)))
      as [E|[rsv E]]; rewrite E; repeat split.
Qed.

Lemma execute_frame (t : ToolCall) (log : list SpawnCall) :
  execute t log = (fst (execute t []), log ++ spawned (execute t)).
Proof.
  unfold spawned.
  destruct (existsSync (resolve (inputPath t))) eqn:Hex.
  - destruct (accepted t (resolve (inputPath t))) eqn:Hacc.
    + now rewrite !(execute_valid t _ Hex Hacc).
    + rewrite !(execute_unsupported t _ Hex Hacc). simpl. now rewrite app_nil_r.
  - rewrite !(execute_missing t _ Hex). simpl. now rewrite app_nil_r.
Qed.

(** X4.  A tool call makes at most one [spawn] call, whatever its request
    and its outcome: no retry, no second process.  The call is appended
    to the calls made before, which it neither reads nor changes; it
    always sets [shell] and [windowsHide] and overrides no environment
    variable. *)
Theorem at_most_one_spawn (t : ToolCall) (log : list SpawnCall) :
  (List.length (spawned (callTool t)) <= 1)%nat
  /\ snd (callTool t log) = log ++ spawned (callTool t)
  /\ fst (callTool t log) = fst (callTool t [])
  /\ Forall (fun call => sp_shell call = true /\ sp_windowsHide call = true
                         /\ sp_env call = [])
       (spawned (callTool t)).
Proof.
  assert (Es : spawned (callTool t) = spawned (execute t))
    by (unfold spawned; apply callTool_spawned).
  rewrite Es. split; [|split; [|split]].
  - rewrite spawned_execute. destruct (_ && _); simpl; lia.
  - rewrite callTool_spawned, (execute_frame t log). reflexivity.
  - rewrite !callTool_execute, (execute_frame t log).
    destruct (execute t []) as [[r|e| |e|e ev] log0]; reflexivity.
  - rewrite spawned_execute. destruct (_ && _); constructor; [|constructor].
    apply launch_options.
Qed.

(** X5.  A tool call spawns a process if and only if its input path
    resolves to an existing file whose lowercased extension is one the
    handler accepts. *)
Theorem spawn_iff_valid (t : ToolCall) :
  spawned (callTool t) <> []
  <-> existsSync (resolve (inputPath t)) = true
      /\ In (toLowerCase (extname (resolve (inputPath t)))) (accepted_extensions (kind t)).
Proof.
  rewrite <- accepted_iff.
  replace (spawned (callTool t)) with (spawned (execute t))
    by (unfold spawned; now rewrite callTool_spawned).
  rewrite spawned_execute.
  destruct (existsSync (resolve (inputPath t))); destruct (accepted t (resolve (inputPath t)));
    simpl; split; try (intros [? ?]; discriminate); try (intros H; now contradiction H);
    try discriminate; now split.
Qed.

(** X11.  The kinds are exclusive: a file one tool accepts is refused by
    every tool of another kind, with the unsupported-kind error and no
    spawn. *)
Theorem other_kind_is_refused (t1 t2 : ToolCall) (log : list SpawnCall) :
  inputPath t1 = inputPath t2 ->
  kind t1 <> kind t2 ->
  existsSync (resolve (inputPath t1)) = true ->
  accepted t1 (resolve (inputPath t1)) = true ->
  execute t2 log = (Rejected (unsupported_error t2), log).
Proof.
  intros Hpath Hkind Hex Hacc. rewrite Hpath in Hex, Hacc.
  apply execute_unsupported; [exact Hex|].
  destruct (accepted t2 (resolve (inputPath t2))) eqn:Hacc2; [|reflexivity].
  apply accepted_iff in Hacc, Hacc2. exfalso.
  destruct (kind t1), (kind t2); try (now apply Hkind); simpl in Hacc, Hacc2;
    repeat match goal with
           | H : _ \/ _ |- _ => destruct H
           | H : False |- _ => destruct H
           end; congruence.
Qed.


Lemma callback_keeps_rejected_uncaught (t : ToolCall) (log : list SpawnCall)
  (e : JsError) (ev : string) :
  fst (callTool t log) = RejectedUncaught e ev
  <-> fst (execute t log) = RejectedUncaught e ev.
Proof.
  rewrite callTool_execute.
  destruct (execute t log) as [[r|e'| |e'|e' ev'] log']; simpl; split;
    intros E; try discriminate; injection E as -> ->; reflexivity.
Qed.

(** *** The Lazarus handlers *)

(** X6.  The argument vector of [lazarusBuild] is, in this order: the
    build-mode flag if given, the CPU flag if given, the OS flag if given,
    and the quoted absolute project path last; the placeholder
    [--build-mode=] never stays when no build mode is given.  When
    [lazarusBuild] spawns, it passes that vector to [lazbuild], or to the
    tool path of the request. *)
Theorem lazarus_args_order (req : LazBuildReq) :
  lazarusArgs (resolve (lb_project req)) req
  = flag "--build-mode=" (buildMode req)
      ++ flag "--cpu=" (lb_cpu req)
      ++ flag "--os=" (lb_os req)
      ++ [ (dq ++ resolve (lb_project req) ++ dq)%string ]
  /\ ~ In "--build-mode=" (lazarusArgs (resolve (lb_project req)) req)
  /\ (spawned (lazarusBuild req) = []
      \/ spawned (lazarusBuild req)
         = [ launched (or_default (lb_lazbuildPath req) "lazbuild")
               (lazarusArgs (resolve (lb_project req)) req)
               (Some (dirname (resolve (lb_project req)))) ]).
Proof.
  assert (E : lazarusArgs (resolve (lb_project req)) req
              = flag "--build-mode=" (buildMode req)
                  ++ flag "--cpu=" (lb_cpu req)
                  ++ flag "--os=" (lb_os req)
                  ++ [ (dq ++ resolve (lb_project req) ++ dq)%string ]).
  { unfold lazarusArgs.
    rewrite (cond_push (fun v => "--cpu=" ++ v)%string).
    rewrite (cond_push (fun v => "--os=" ++ v)%string).
    unfold push, flag. rewrite <- !app_assoc. f_equal.
    destruct (buildMode req) as [[|c bm]|]; reflexivity. }
  split; [exact E|]. split.
  - rewrite E. unfold flag.
    destruct (buildMode req) as [[|a bm]|], (lb_cpu req) as [[|b cpu]|],
      (lb_os req) as [[|c os]|]; simpl;
      intros H; repeat (destruct H as [H|H]; [discriminate|]); exact H.
  - change (lazarusBuild req) with (execute (LazarusBuild req)).
    rewrite spawned_execute. destruct (_ && _); [now right | now left].
Qed.

(** *** Defaults of the MSBuild handlers *)

Lemma or_default_not_empty (a : option string) (d : string) :
  d <> EmptyString -> or_default a d <> EmptyString.
Proof.
  intros Hd. destruct a as [s|]; simpl; [|exact Hd].
  destruct (s =? EmptyString)%string eqn:E; [exact Hd | now apply String.eqb_neq].
Qed.

(** X7.  The build tool is the first non-empty of the request's
    [msbuildPath] and the environment's [MSBUILD_PATH], and [msbuild]
    when both are undefined or empty; it is never the empty string. *)
Theorem msbuildFinal_precedence (req : MSBuildReq) :
  msbuildFinal req
  = hd "msbuild" (given (msbuildPath req) ++ given (getenv "MSBUILD_PATH"))
  /\ msbuildFinal req <> EmptyString.
Proof.
  unfold msbuildFinal, resolveDefaults, or_else, or_default, truthy, cond, given.
  destruct (msbuildPath req) as [m|]; [destruct (m =? EmptyString)%string eqn:Em|];
    (destruct (getenv "MSBUILD_PATH") as [v|];
     [destruct (v =? EmptyString)%string eqn:Ev|]);
    simpl; rewrite ?Em, ?Ev; split; try reflexivity; try discriminate;
    now apply String.eqb_neq.
Qed.

(** X8.  The environment-initialization script path is the first non-empty
    of the request's [rsvarsPath], the environment's [RSVARS_BAT] and the
    environment's [RSVARS_PATH], in that order; it is not given when all
    three are undefined or empty. *)
Theorem rsvarsFinal_precedence (req : MSBuildReq) :
  given (rsvarsFinal req)
  = firstn 1 (given (rsvarsPath req) ++ given (getenv "RSVARS_BAT")
                ++ given (getenv "RSVARS_PATH")).
Proof.
  unfold rsvarsFinal, resolveDefaults, or_else, truthy, cond, given.
  destruct (rsvarsPath req) as [r|]; [destruct (r =? EmptyString)%string eqn:Er|];
    (destruct (getenv "RSVARS_BAT") as [b|];
     [destruct (b =? EmptyString)%string eqn:Eb|]);
    (destruct (getenv "RSVARS_PATH") as [v|];
     [destruct (v =? EmptyString)%string eqn:Ev|]);
    simpl; rewrite ?Er, ?Eb, ?Ev; reflexivity.
Qed.

(** X9.  A script path given in the request is not replaced by the
    environment's when it does not exist: the build tool is then spawned
    directly, without the interpreter, even if [RSVARS_BAT] or
    [RSVARS_PATH] names an existing script. *)
Theorem explicit_script_missing_runs_directly (req : MSBuildReq) (rsv : string) :
  rsvarsPath req = Some rsv ->
  rsv <> EmptyString ->
  existsSync rsv = false ->
  existsSync (resolve (project req)) = true ->
  isDelphiProject (resolve (project req)) = true ->
  spawned (buildWithMSBuild req)
  = [ launched (msbuildFinal req)
        (buildArgs (resolve (project req)) (configuration req) (platform req)) None ]
  /\ spawned (cleanWithMSBuild req)
     = [ launched (msbuildFinal req)
           (cleanArgs (resolve (project req)) (configuration req) (platform req)) None ].
Proof.
  intros Hrsv Hne Hmiss Hex Hacc.
  assert (Hlaunch : forall args,
             msbuild_launch req args = launched (msbuildFinal req) args None).
  { intros args. unfold msbuild_launch, rsvarsFinal, resolveDefaults, or_else, truthy, cond.
    rewrite Hrsv. apply String.eqb_neq in Hne. rewrite Hne. simpl.
    now rewrite Hne, Hmiss. }
  split.
  - change (buildWithMSBuild req) with (execute (DelphiBuild req)).
    rewrite spawned_execute. unfold accepted. simpl. rewrite Hex, Hacc. simpl.
    now rewrite Hlaunch.
  - change (cleanWithMSBuild req) with (execute (DelphiClean req)).
    rewrite spawned_execute. unfold accepted. simpl. rewrite Hex, Hacc. simpl.
    now rewrite Hlaunch.
Qed.

Lemma flag_not_empty (prefix : string) (field : option string) :
  Forall (fun a => a <> EmptyString) (flag (String "/" prefix) field).
Proof.
  unfold flag, given. destruct field as [v|]; [|constructor].
  destruct (v =? EmptyString)%string; constructor; [discriminate | constructor].
Qed.

Lemma flag_length (prefix : string) (field : option string) :
  (List.length (flag prefix field) <= 1)%nat.
Proof.
  unfold flag, given. destruct field as [v|]; [|simpl; lia].
  destruct (v =? EmptyString)%string; simpl; lia.
Qed.

(** X10.  The MSBuild vectors hold no empty argument and two to four
    arguments; the build and the clean vector of one request start with
    the same quoted path, carry [/t:Build] and [/t:Clean] second, and
    the same property flags after it. *)
Theorem msbuild_args_shape (projPath : string) (c p : option string) :
  Forall (fun a => a <> EmptyString) (buildArgs projPath c p)
  /\ Forall (fun a => a <> EmptyString) (cleanArgs projPath c p)
  /\ (2 <= List.length (buildArgs projPath c p) <= 4)%nat
  /\ List.length (cleanArgs projPath c p) = List.length (buildArgs projPath c p)
  /\ firstn 2 (buildArgs projPath c p) = [ (dq ++ projPath ++ dq)%string; "/t:Build" ]
  /\ firstn 2 (cleanArgs projPath c p) = [ (dq ++ projPath ++ dq)%string; "/t:Clean" ]
  /\ skipn 2 (cleanArgs projPath c p) = skipn 2 (buildArgs projPath c p).
Proof.
  rewrite buildArgs_flags, cleanArgs_flags.
  pose proof (flag_length "/p:Config=" c) as Lc.
  pose proof (flag_length "/p:Platform=" p) as Lp.
  repeat split.
  - repeat constructor; try discriminate.
    apply Forall_app; split; apply flag_not_empty.
  - repeat constructor; try discriminate.
    apply Forall_app; split; apply flag_not_empty.
  - simpl. lia.
  - simpl. rewrite length_app. lia.
Qed.

(** *** Schema defaults and the test scripts *)

(** X13.  A [delphi.build] request that names only the project is built
    with both property flags, from [DELPHI_CONFIG] and [DELPHI_PLATFORM]
    or else [Release] and [Win32]; a [delphi.clean] request that names
    only the project carries the platform flag and no configuration
    flag. *)
Theorem schema_defaults (path : string) (msbuild rsvars : option string) :
  let raw := mkMSBuildReq path None None msbuild rsvars in
  buildArgs (resolve path) (configuration (BuildInput raw)) (platform (BuildInput raw))
  = [ (dq ++ resolve path ++ dq)%string; "/t:Build";
      ("/p:Config=" ++ or_default (getenv "DELPHI_CONFIG") "Release")%string;
      ("/p:Platform=" ++ or_default (getenv "DELPHI_PLATFORM") "Win32")%string ]
  /\ cleanArgs (resolve path) (configuration (CleanInput raw)) (platform (CleanInput raw))
     = [ (dq ++ resolve path ++ dq)%string; "/t:Clean";
         ("/p:Platform=" ++ or_default (getenv "DELPHI_PLATFORM") "Win32")%string ].
Proof.
  intros raw. rewrite buildArgs_flags, cleanArgs_flags. unfold flag, given. simpl.
  assert (Hc : or_default (getenv "DELPHI_CONFIG") "Release" <> EmptyString)
    by (apply or_default_not_empty; discriminate).
  assert (Hp : or_default (getenv "DELPHI_PLATFORM") "Win32" <> EmptyString)
    by (apply or_default_not_empty; discriminate).
  apply String.eqb_neq in Hc, Hp. now rewrite Hc, Hp.
Qed.

(** X14.  Whatever arguments the test scripts are run with, the request
    they send has a configuration and a platform that are not empty, so
    the server builds the full vector of four arguments (and cleans with
    four) for it. *)
Theorem test_scripts_send_both_properties (projectPath : string)
  (platformArg configArg : option string) :
  let req := test_arguments projectPath platformArg configArg in
  BuildInput req = req
  /\ CleanInput req = req
  /\ truthy (configuration req) = true
  /\ truthy (platform req) = true
  /\ List.length (buildArgs (resolve (project req)) (configuration req) (platform req)) = 4%nat
  /\ List.length (cleanArgs (resolve (project req)) (configuration req) (platform req)) = 4%nat.
Proof.
  intros req.
  assert (Hc : or_default (or_else configArg (getenv "DELPHI_CONFIG")) "Release"
               <> EmptyString) by (apply or_default_not_empty; discriminate).
  assert (Hp : or_default (or_else platformArg (getenv "DELPHI_PLATFORM")) "Win32"
               <> EmptyString) by (apply or_default_not_empty; discriminate).
  apply String.eqb_neq in Hc, Hp.
  rewrite buildArgs_flags, cleanArgs_flags.
  unfold req, test_arguments, flag, given, truthy, cond. simpl. rewrite Hc, Hp.
  repeat split.
Qed.

End MoreProperties.

(** ** Further runs on the concrete hosts *)

Section MoreOnStudioHost.

#[local] Existing Instance studio_host.

Lemma runCommand_collects_output_witness :
  let call := launched "fpc" ["-l"] None in
  spawn call
  = Child ([StdoutData "compiling"; StderrData "Fatal: "; StderrData "syntax error"]
             ++ Close (Some 1%Z) :: [])
  /\ runCommand "fpc" ["-l"] no_options []
     = (Resolved (mkResult (Some 1%Z) "compiling" "Fatal: syntax error"), [call]).
Proof.
  split; [reflexivity|].
  exact (runCommand_collects_output "fpc" ["-l"] no_options []
           [StdoutData "compiling"; StderrData "Fatal: "; StderrData "syntax error"]
           [] (Some 1%Z) eq_refl eq_refl).
Defined.

Lemma explicit_script_missing_runs_directly_witness :
  let req := mkMSBuildReq "App.dproj" (Some "Debug") None None
               (Some "/opt/old/rsvars.bat") in
  getenv "RSVARS_BAT" = Some "/opt/studio/rsvars.bat"
  /\ existsSync "/opt/studio/rsvars.bat" = true
  /\ existsSync "/opt/old/rsvars.bat" = false
  /\ spawned (buildWithMSBuild req)
     = [ launched "msbuild"
           [ (dq ++ "/work/App.dproj" ++ dq)%string; "/t:Build"; "/p:Config=Debug" ] None ].
Proof.
  split; [reflexivity|]. split; [reflexivity|]. split; [reflexivity|].
  assert (Hne : "/opt/old/rsvars.bat" <> EmptyString) by discriminate.
  exact (proj1 (explicit_script_missing_runs_directly
                  (mkMSBuildReq "App.dproj" (Some "Debug") None None
                     (Some "/opt/old/rsvars.bat"))
                  "/opt/old/rsvars.bat" eq_refl Hne eq_refl eq_refl eq_refl)).
Defined.

End MoreOnStudioHost.

Section OnHangingHost.

#[local] Existing Instance hanging_host.

Lemma runCommand_waits_for_close_witness :
  spawn (launched "lazbuild" ["--clean"] None)
  = Child [StdoutData "waiting"; StderrData "still waiting"]
  /\ fst (runCommand "lazbuild" ["--clean"] no_options []) = Unsettled.
Proof.
  split; [reflexivity|].
  exact (runCommand_waits_for_close "lazbuild" ["--clean"] no_options []
           [StdoutData "waiting"; StderrData "still waiting"] eq_refl eq_refl).
Defined.

End OnHangingHost.

Section MoreOnDemoHost.

#[local] Existing Instance demo_host.

Lemma other_kind_is_refused_witness :
  let t1 := LazarusClean (mkLazCleanReq "demo.lpi" None) in
  let t2 := DelphiBuild (mkMSBuildReq "demo.lpi" None None None None) in
  spawned (execute t1)
  = [ launched "lazbuild" ["--clean"; (dq ++ "/work/demo.lpi" ++ dq)%string] (Some "/work") ]
  /\ execute t2 []
     = (Rejected (Error "Unsupported project type. Provide a .dproj or .groupproj file"), []).
Proof.
  split; [reflexivity|].
  assert (Hkind : kind (LazarusClean (mkLazCleanReq "demo.lpi" None))
                  <> kind (DelphiBuild (mkMSBuildReq "demo.lpi" None None None None)))
    by discriminate.
  exact (other_kind_is_refused
           (LazarusClean (mkLazCleanReq "demo.lpi" None))
           (DelphiBuild (mkMSBuildReq "demo.lpi" None None None None)) []
           eq_refl Hkind eq_refl eq_refl).
Defined.

End MoreOnDemoHost.

Section OnConfiguredHost.

#[local] Existing Instance configured_host.

Example configured_defaults :
  let req := mkMSBuildReq "App.dproj" None None (Some EmptyString) None in
  msbuildFinal req = "/opt/msbuild/MSBuild.exe"
  /\ rsvarsFinal req = Some "/opt/studio/rsvars.bat"
  /\ configuration (BuildInput req) = Some "Debug"
  /\ platform (CleanInput req) = Some "Win64"
  /\ configuration (CleanInput req) = None.
Proof. repeat split. Qed.

Example killed_child_is_an_error :
  delphi_clean (CleanInput (mkMSBuildReq "App.dproj" None None None None)) []
  = (Resolved
       (mkResponse
          [ TextPart "Clean failed for App.dproj";
            TextPart "Exit code: null";
            TextPart ("--- STDOUT ---" ++ nl);
            TextPart ("--- STDERR ---" ++ nl) ]
          true),
     [ launched "cmd"
         [ "/s"; "/c";
           (dq ++ "@echo off && call " ++ dq ++ "/opt/studio/rsvars.bat" ++ dq
               ++ " && /opt/msbuild/MSBuild.exe " ++ dq ++ "/work/App.dproj" ++ dq
               ++ " /t:Clean /p:Platform=Win64" ++ dq)%string ]
         None ]).
Proof. reflexivity. Qed.

End OnConfiguredHost.

Section OnExhaustedHost.

#[local] Existing Instance exhausted_host.

Example streamless_child_rejects :
  let call := launched "fpc" [(dq ++ "/work/main.lpr" ++ dq)%string] (Some "/work") in
  let thrown := TypeError "Cannot read properties of undefined (reading 'on')" in
  spawn_failure (spawn call)
  /\ buildWithFpc (mkFpcReq "main.lpr" None None None None None None None) []
     = (RejectedUncaught thrown "spawn /bin/sh EMFILE", [call])
  /\ promise_rejected
       (outcome (fpc_build (mkFpcReq "main.lpr" None None None None None None None)))
       thrown.
Proof.
  repeat split.
  - apply failure_streamless.
  - right. now exists "spawn /bin/sh EMFILE".
Qed.

End OnExhaustedHost.
